(** * C64 KRV (Kernal ROM / Video) switcher: the v1.1 sketch in Rocq

    A shallow embedding of [src/Arduino/c64krvsw/c64krvsw.ino].  The
    sketch is a polling loop over a handful of global variables, two
    interrupt handlers that fill a one-slot mailbox, and calls into the
    Arduino core (pin I/O, delays, EEPROM).  Every function of the sketch
    is a state transformer of the same name; every call into the Arduino
    core is appended to a log kept in the state, and the pin directions
    and latched levels are read back from that log.

    Bytes ([byte]) are integers modulo 256 and [int] is the 16-bit signed
    integer of the AVR target; both live in [Z] with the wrap-around
    written where the sketch does arithmetic. *)

From Stdlib Require Import ZArith List Bool Lia.
Import ListNotations.
Local Open Scope Z_scope.

(** ** Arduino core vocabulary *)

Inductive level := LOW | HIGH.
Inductive mode := INPUT | OUTPUT | INPUT_PULLUP.
Inductive handler := Row0_handler | Row3_handler.

Inductive event :=
| PinMode (pin : Z) (m : mode)
| DigitalWrite (pin : Z) (v : level)
| Delay (ms : Z)
| DelayMicroseconds (us : Z)
| EepromWrite (addr val : Z)
| AttachInterrupt (num : Z) (h : handler) (trigger : level).

Definition level_eqb (a b : level) : bool :=
  match a, b with LOW, LOW | HIGH, HIGH => true | _, _ => false end.

Definition byte (z : Z) : Z := z mod 256.
Definition int16 (z : Z) : Z := (z + 32768) mod 65536 - 32768.

(** Analog pin aliases of the ATmega328P boards (pins_arduino.h). *)
Definition A0 : Z := 14.
Definition A1 : Z := 15.
Definition A2 : Z := 16.
Definition A3 : Z := 17.
Definition A4 : Z := 18.
Definition A5 : Z := 19.

Definition digitalPinToInterrupt (p : Z) : Z :=
  if p =? 2 then 0 else if p =? 3 then 1 else -1.

(** ** Constants of the sketch *)

Definition Row0 : Z := 2.
Definition Row3 : Z := 3.
Definition KSW_A13 : Z := 4.
Definition KSW_A14 : Z := 5.
Definition KSW_A15 : Z := 6.
Definition NeN : Z := 9.
Definition PeN : Z := 10.
Definition C64RES : Z := 7.
Definition EXROMRES : Z := 8.
Definition Col1 : Z := A0.
Definition Col2 : Z := A1.
Definition Col3 : Z := A2.
Definition Col4 : Z := A3.
Definition Col7 : Z := A4.
Definition RESTOREPin : Z := A5.
Definition KMax : Z := 8.
Definition KernalSlot : Z := 0.
Definition ScanActiveSlot : Z := 1.
Definition NPModeSlot : Z := 2.
Definition Default_Scan_Count : Z := 10000.
Definition Default_Restore_Count : Z := 5000.

(** ** Program state

    The globals of the sketch in declaration order, the three [volatile]
    mailbox variables shared with the interrupt handlers, the EEPROM
    contents and the log of Arduino calls (most recent first). *)

Record state := {
  kernal_num : Z;
  kernal_addr : Z;
  np_mode : Z;
  restore_found : bool;
  restore_counter : Z;
  key : Z;
  columns : Z;
  scan_counter : Z;
  scan_found : bool;
  scan_active : Z;
  numPressed : bool;
  numOdd : bool;
  colData : Z;
  eeprom : Z -> Z;
  trace : list event
}.

Definition set_kernal_num (v : Z) (s : state) : state :=
  {| kernal_num := v; kernal_addr := kernal_addr s; np_mode := np_mode s;
     restore_found := restore_found s; restore_counter := restore_counter s;
     key := key s; columns := columns s; scan_counter := scan_counter s;
     scan_found := scan_found s; scan_active := scan_active s;
     numPressed := numPressed s; numOdd := numOdd s; colData := colData s;
     eeprom := eeprom s; trace := trace s |}.

Definition set_kernal_addr (v : Z) (s : state) : state :=
  {| kernal_num := kernal_num s; kernal_addr := v; np_mode := np_mode s;
     restore_found := restore_found s; restore_counter := restore_counter s;
     key := key s; columns := columns s; scan_counter := scan_counter s;
     scan_found := scan_found s; scan_active := scan_active s;
     numPressed := numPressed s; numOdd := numOdd s; colData := colData s;
     eeprom := eeprom s; trace := trace s |}.

Definition set_np_mode (v : Z) (s : state) : state :=
  {| kernal_num := kernal_num s; kernal_addr := kernal_addr s; np_mode := v;
     restore_found := restore_found s; restore_counter := restore_counter s;
     key := key s; columns := columns s; scan_counter := scan_counter s;
     scan_found := scan_found s; scan_active := scan_active s;
     numPressed := numPressed s; numOdd := numOdd s; colData := colData s;
     eeprom := eeprom s; trace := trace s |}.

Definition set_restore_found (v : bool) (s : state) : state :=
  {| kernal_num := kernal_num s; kernal_addr := kernal_addr s;
     np_mode := np_mode s; restore_found := v;
     restore_counter := restore_counter s; key := key s;
     columns := columns s; scan_counter := scan_counter s;
     scan_found := scan_found s; scan_active := scan_active s;
     numPressed := numPressed s; numOdd := numOdd s; colData := colData s;
     eeprom := eeprom s; trace := trace s |}.

Definition set_restore_counter (v : Z) (s : state) : state :=
  {| kernal_num := kernal_num s; kernal_addr := kernal_addr s;
     np_mode := np_mode s; restore_found := restore_found s;
     restore_counter := v; key := key s; columns := columns s;
     scan_counter := scan_counter s; scan_found := scan_found s;
     scan_active := scan_active s; numPressed := numPressed s;
     numOdd := numOdd s; colData := colData s; eeprom := eeprom s;
     trace := trace s |}.

Definition set_key (v : Z) (s : state) : state :=
  {| kernal_num := kernal_num s; kernal_addr := kernal_addr s;
     np_mode := np_mode s; restore_found := restore_found s;
     restore_counter := restore_counter s; key := v; columns := columns s;
     scan_counter := scan_counter s; scan_found := scan_found s;
     scan_active := scan_active s; numPressed := numPressed s;
     numOdd := numOdd s; colData := colData s; eeprom := eeprom s;
     trace := trace s |}.

Definition set_columns (v : Z) (s : state) : state :=
  {| kernal_num := kernal_num s; kernal_addr := kernal_addr s;
     np_mode := np_mode s; restore_found := restore_found s;
     restore_counter := restore_counter s; key := key s; columns := v;
     scan_counter := scan_counter s; scan_found := scan_found s;
     scan_active := scan_active s; numPressed := numPressed s;
     numOdd := numOdd s; colData := colData s; eeprom := eeprom s;
     trace := trace s |}.

Definition set_scan_counter (v : Z) (s : state) : state :=
  {| kernal_num := kernal_num s; kernal_addr := kernal_addr s;
     np_mode := np_mode s; restore_found := restore_found s;
     restore_counter := restore_counter s; key := key s;
     columns := columns s; scan_counter := v; scan_found := scan_found s;
     scan_active := scan_active s; numPressed := numPressed s;
     numOdd := numOdd s; colData := colData s; eeprom := eeprom s;
     trace := trace s |}.

Definition set_scan_found (v : bool) (s : state) : state :=
  {| kernal_num := kernal_num s; kernal_addr := kernal_addr s;
     np_mode := np_mode s; restore_found := restore_found s;
     restore_counter := restore_counter s; key := key s;
     columns := columns s; scan_counter := scan_counter s; scan_found := v;
     scan_active := scan_active s; numPressed := numPressed s;
     numOdd := numOdd s; colData := colData s; eeprom := eeprom s;
     trace := trace s |}.

Definition set_scan_active (v : Z) (s : state) : state :=
  {| kernal_num := kernal_num s; kernal_addr := kernal_addr s;
     np_mode := np_mode s; restore_found := restore_found s;
     restore_counter := restore_counter s; key := key s;
     columns := columns s; scan_counter := scan_counter s;
     scan_found := scan_found s; scan_active := v;
     numPressed := numPressed s; numOdd := numOdd s; colData := colData s;
     eeprom := eeprom s; trace := trace s |}.

Definition set_numPressed (v : bool) (s : state) : state :=
  {| kernal_num := kernal_num s; kernal_addr := kernal_addr s;
     np_mode := np_mode s; restore_found := restore_found s;
     restore_counter := restore_counter s; key := key s;
     columns := columns s; scan_counter := scan_counter s;
     scan_found := scan_found s; scan_active := scan_active s;
     numPressed := v; numOdd := numOdd s; colData := colData s;
     eeprom := eeprom s; trace := trace s |}.

Definition set_numOdd (v : bool) (s : state) : state :=
  {| kernal_num := kernal_num s; kernal_addr := kernal_addr s;
     np_mode := np_mode s; restore_found := restore_found s;
     restore_counter := restore_counter s; key := key s;
     columns := columns s; scan_counter := scan_counter s;
     scan_found := scan_found s; scan_active := scan_active s;
     numPressed := numPressed s; numOdd := v; colData := colData s;
     eeprom := eeprom s; trace := trace s |}.

Definition set_colData (v : Z) (s : state) : state :=
  {| kernal_num := kernal_num s; kernal_addr := kernal_addr s;
     np_mode := np_mode s; restore_found := restore_found s;
     restore_counter := restore_counter s; key := key s;
     columns := columns s; scan_counter := scan_counter s;
     scan_found := scan_found s; scan_active := scan_active s;
     numPressed := numPressed s; numOdd := numOdd s; colData := v;
     eeprom := eeprom s; trace := trace s |}.

Definition set_eeprom (v : Z -> Z) (s : state) : state :=
  {| kernal_num := kernal_num s; kernal_addr := kernal_addr s;
     np_mode := np_mode s; restore_found := restore_found s;
     restore_counter := restore_counter s; key := key s;
     columns := columns s; scan_counter := scan_counter s;
     scan_found := scan_found s; scan_active := scan_active s;
     numPressed := numPressed s; numOdd := numOdd s; colData := colData s;
     eeprom := v; trace := trace s |}.

Definition set_trace (v : list event) (s : state) : state :=
  {| kernal_num := kernal_num s; kernal_addr := kernal_addr s;
     np_mode := np_mode s; restore_found := restore_found s;
     restore_counter := restore_counter s; key := key s;
     columns := columns s; scan_counter := scan_counter s;
     scan_found := scan_found s; scan_active := scan_active s;
     numPressed := numPressed s; numOdd := numOdd s; colData := colData s;
     eeprom := eeprom s; trace := v |}.

(** The state at power-on: the initialisers of the globals (zero where
    the sketch gives none), an arbitrary EEPROM image and an empty log. *)
Definition power_on (e : Z -> Z) : state :=
  {| kernal_num := 0; kernal_addr := 0; np_mode := 1;
     restore_found := false; restore_counter := 0;
     key := 128; columns := 0; scan_counter := 0;
     scan_found := false; scan_active := 1;
     numPressed := false; numOdd := false; colData := 31;
     eeprom := e; trace := [] |}.

(** ** Commands *)

Definition cmd := state -> state.

Definition skip : cmd := fun s => s.
Definition seq (c1 c2 : cmd) : cmd := fun s => c2 (c1 s).
Definition ifc (b : state -> bool) (c1 c2 : cmd) : cmd :=
  fun s => if b s then c1 s else c2 s.

Notation "c1 ;; c2" := (seq c1 c2) (at level 61, right associativity).

(** When two programs are compared, the functions of the sketch are
    unfolded before the combinators that glue their statements. *)
Strategy 10 [seq ifc].

Definition emit (e : event) : cmd := fun s => set_trace (e :: trace s) s.

Definition upd {A : Type} (f : Z -> A) (k : Z) (v : A) : Z -> A :=
  fun x => if x =? k then v else f x.

Definition pinMode (p : Z) (m : mode) : cmd := emit (PinMode p m).
Definition digitalWrite (p : Z) (v : level) : cmd := emit (DigitalWrite p v).
Definition delay (ms : Z) : cmd := emit (Delay ms).
Definition delayMicroseconds (us : Z) : cmd := emit (DelayMicroseconds us).
Definition attachInterrupt (n : Z) (h : handler) (t : level) : cmd :=
  emit (AttachInterrupt n h t).

(** [EEPROM.read] returns the cell as it is: the cells are bytes. *)
Definition EEPROM_read (a : Z) (s : state) : Z := eeprom s a.
Definition EEPROM_write (a v : Z) : cmd :=
  fun s => emit (EepromWrite a v) (set_eeprom (upd (eeprom s) a v) s).

(** Append calls, given oldest first, to the log. *)
Definition log_events (evs : list event) : cmd :=
  fun s => set_trace (rev evs ++ trace s) s.

(** The log in the order the calls were made. *)
Definition history (s : state) : list event := rev (trace s).

(** Direction and latched level of a pin, read back from a log (most
    recent first): the argument of the last [pinMode], resp.
    [digitalWrite], on that pin.  A pin never configured is an input. *)
Fixpoint pin_dir (tr : list event) (p : Z) : mode :=
  match tr with
  | [] => INPUT
  | PinMode q m :: tr' => if q =? p then m else pin_dir tr' p
  | _ :: tr' => pin_dir tr' p
  end.

Fixpoint pin_level (tr : list event) (p : Z) : level :=
  match tr with
  | [] => LOW
  | DigitalWrite q v :: tr' => if q =? p then v else pin_level tr' p
  | _ :: tr' => pin_level tr' p
  end.

(** ** The sketch *)

(** [systemRESET] *)
Definition systemRESET : cmd :=
  digitalWrite C64RES HIGH ;;
  pinMode C64RES INPUT ;;
  digitalWrite C64RES HIGH ;;
  digitalWrite EXROMRES LOW ;;
  pinMode EXROMRES OUTPUT ;;
  digitalWrite EXROMRES LOW.

(** [systemUNRESET] *)
Definition systemUNRESET : cmd :=
  delay 200 ;;
  digitalWrite C64RES LOW ;;
  pinMode C64RES OUTPUT ;;
  digitalWrite C64RES LOW ;;
  delay 300 ;;
  digitalWrite EXROMRES HIGH ;;
  pinMode EXROMRES INPUT ;;
  digitalWrite EXROMRES HIGH.

(** [SetAddressBits] *)
Definition SetAddressBits (addr : Z) : cmd :=
  (if Z.land addr 1 =? 0
   then digitalWrite KSW_A13 LOW else digitalWrite KSW_A13 HIGH) ;;
  (if Z.land addr 2 =? 0
   then digitalWrite KSW_A14 LOW else digitalWrite KSW_A14 HIGH) ;;
  (if Z.land addr 4 =? 0
   then digitalWrite KSW_A15 LOW else digitalWrite KSW_A15 HIGH).

(** [SetVideoBits] *)
Definition SetVideoBits (addr : Z) : cmd :=
  if addr =? 0
  then digitalWrite NeN LOW ;; digitalWrite PeN HIGH ;;
       delay 500 ;; digitalWrite PeN LOW
  else digitalWrite NeN HIGH ;; digitalWrite PeN LOW ;;
       delay 500 ;; digitalWrite NeN LOW.

(** The tail shared by [SwitchKernal] and [SwitchVideo]: re-arm the scan
    countdown and set the detection flag from [scan_active]. *)
Definition rearm_scan : cmd :=
  set_scan_counter Default_Scan_Count ;;
  ifc (fun s => scan_active s =? 1)
      (set_scan_found false)
      (set_scan_found true).

(** [SwitchKernal] *)
Definition SwitchKernal : cmd :=
  systemRESET ;;
  (fun s => SetAddressBits (kernal_addr s) s) ;;
  delay 2000 ;;
  systemUNRESET ;;
  delay 2000 ;;
  rearm_scan.

(** [SwitchVideo] *)
Definition SwitchVideo : cmd :=
  systemRESET ;;
  (fun s => SetVideoBits (np_mode s) s) ;;
  delay 2000 ;;
  systemUNRESET ;;
  delay 2000 ;;
  rearm_scan.

(** [setup] *)
Definition setup : cmd :=
  pinMode Row0 INPUT_PULLUP ;;
  pinMode Row3 INPUT_PULLUP ;;
  pinMode Col1 INPUT_PULLUP ;;
  pinMode Col2 INPUT_PULLUP ;;
  pinMode Col3 INPUT_PULLUP ;;
  pinMode Col4 INPUT_PULLUP ;;
  pinMode Col7 INPUT_PULLUP ;;
  pinMode RESTOREPin INPUT_PULLUP ;;
  pinMode KSW_A13 OUTPUT ;;
  pinMode KSW_A14 OUTPUT ;;
  pinMode KSW_A15 OUTPUT ;;
  pinMode NeN OUTPUT ;;
  pinMode PeN OUTPUT ;;
  pinMode C64RES OUTPUT ;;
  pinMode EXROMRES INPUT ;;
  (fun s => set_kernal_num (EEPROM_read KernalSlot s) s) ;;
  ifc (fun s => (kernal_num s <? 1) || (kernal_num s >? KMax))
      (set_kernal_num 1 ;;
       (fun s => EEPROM_write KernalSlot (kernal_num s) s))
      skip ;;
  (fun s => set_kernal_addr (byte (kernal_num s - 1)) s) ;;
  (fun s => set_scan_active (EEPROM_read ScanActiveSlot s) s) ;;
  ifc (fun s => negb (scan_active s =? 0) && negb (scan_active s =? 1))
      (set_scan_active 1 ;;
       (fun s => EEPROM_write ScanActiveSlot (scan_active s) s))
      skip ;;
  (fun s => set_np_mode (EEPROM_read NPModeSlot s) s) ;;
  ifc (fun s => negb (np_mode s =? 0) && negb (np_mode s =? 1))
      (set_np_mode 1 ;;
       (fun s => EEPROM_write NPModeSlot (np_mode s) s))
      skip ;;
  systemRESET ;;
  (fun s => SetAddressBits (kernal_addr s) s) ;;
  (fun s => SetVideoBits (np_mode s) s) ;;
  set_scan_counter Default_Scan_Count ;;
  set_scan_found false ;;
  ifc (fun s => scan_active s =? 0) (set_scan_found true) skip ;;
  attachInterrupt (digitalPinToInterrupt Row0) Row0_handler LOW ;;
  attachInterrupt (digitalPinToInterrupt Row3) Row3_handler LOW ;;
  systemUNRESET.

(** [ISR_Row0] and [ISR_Row3]; [pinc] is the value of the PINC register
    when the handler runs. *)
Definition ISR_Row0 (pinc : Z) : cmd :=
  ifc (fun s => negb (numPressed s))
      (set_colData (Z.land pinc 31) ;;
       set_scan_found true ;;
       set_numOdd true ;;
       ifc (fun s => negb (colData s =? 31) && negb (colData s =? 0))
           (set_numPressed true)
           skip)
      skip.

Definition ISR_Row3 (pinc : Z) : cmd :=
  ifc (fun s => negb (numPressed s))
      (set_colData (Z.land pinc 31) ;;
       set_scan_found true ;;
       set_numOdd false ;;
       ifc (fun s => negb (colData s =? 31) && negb (colData s =? 0))
           (set_numPressed true)
           skip)
      skip.

(** The three sections of [loop], in source order.  [pinc] is the value
    PINC has when the first section samples it and [restore] the level
    [digitalRead(RESTOREPin)] returns. *)

(** Scan-liveness watchdog (the [if (!scan_found)] block). *)
Definition loop_scan (pinc : Z) : cmd :=
  ifc (fun s => negb (scan_found s))
      (set_columns (Z.land pinc 31) ;;
       ifc (fun s => negb (columns s =? 31))
           (set_scan_found true)
           (ifc (fun s => scan_counter s >? 0)
                ((fun s => set_scan_counter (int16 (scan_counter s - 1)) s) ;;
                 delayMicroseconds 33)
                (ifc (fun s => scan_active s =? 1)
                     (set_kernal_num 1 ;;
                      (fun s => EEPROM_write KernalSlot (kernal_num s) s) ;;
                      (fun s => set_kernal_addr (byte (kernal_num s - 1)) s) ;;
                      SwitchKernal)
                     (set_scan_counter Default_Scan_Count ;;
                      set_scan_found true))))
      skip.

(** "Process RESTORE key". *)
Definition loop_restore (restore : level) : cmd :=
  if level_eqb restore HIGH
  then set_restore_found false ;;
       set_restore_counter Default_Restore_Count
  else set_restore_found true ;;
       ifc (fun s => restore_counter s >? 0)
           (fun s => set_restore_counter (int16 (restore_counter s - 1)) s)
           (systemRESET ;;
            set_scan_counter Default_Scan_Count ;;
            set_scan_found false ;;
            delay 2000 ;;
            systemUNRESET).

(** The column-to-digit table and the row adjustment at the head of
    "Process when a NUMBER key is pressed"; [k] is the value [key] has on
    entry, kept when no column bit is low. *)
Definition decode_key (c : Z) (odd : bool) (k : Z) : Z :=
  let k1 :=
    if Z.land c 16 =? 0 then 1
    else if Z.land c 1 =? 0 then 3
    else if Z.land c 2 =? 0 then 5
    else if Z.land c 4 =? 0 then 7
    else if Z.land c 8 =? 0 then 9
    else k in
  let k2 := if negb odd then byte (k1 + 1) else k1 in
  if k2 =? 10 then 0 else k2.

(** "Process when a NUMBER key is pressed (set by ISR)". *)
Definition loop_number : cmd :=
  ifc numPressed
      ((fun s => set_key (decode_key (colData s) (numOdd s) (key s)) s) ;;
       ifc (fun s => restore_found s && (0 <=? key s) && (key s <=? 9))
           (fun s =>
              if key s =? 0 then
                (set_scan_active 0 ;;
                 set_kernal_num 1 ;;
                 (fun s => EEPROM_write KernalSlot (kernal_num s) s) ;;
                 (fun s => set_kernal_addr (byte (kernal_num s - 1)) s) ;;
                 (fun s => EEPROM_write ScanActiveSlot (scan_active s) s) ;;
                 SwitchKernal) s
              else if key s =? 9 then
                ((fun s => if np_mode s =? 1
                           then set_np_mode 0 s else set_np_mode 1 s) ;;
                 (fun s => EEPROM_write NPModeSlot (np_mode s) s) ;;
                 SwitchVideo) s
              else
                (set_scan_active 1 ;;
                 (fun s => set_kernal_num (key s) s) ;;
                 (fun s => EEPROM_write KernalSlot (kernal_num s) s) ;;
                 (fun s => set_kernal_addr (byte (kernal_num s - 1)) s) ;;
                 (fun s => EEPROM_write ScanActiveSlot (scan_active s) s) ;;
                 SwitchKernal) s)
           skip)
      skip.

(** [loop]: one iteration of the polling loop. *)
Definition loop (pinc : Z) (restore : level) : cmd :=
  loop_scan pinc ;;
  loop_restore restore ;;
  loop_number ;;
  set_key 128 ;;
  set_numPressed false ;;
  delayMicroseconds 1000.

(** ** Reading a state *)

(** The digit a pending event decodes to when the loop consumes it. *)
Definition pending_digit (s : state) : Z :=
  decode_key (colData s) (numOdd s) (key s).

(** The level [SetAddressBits] gives the line of bit [i] of [addr]. *)
Definition line_of_bit (addr : Z) (i : Z) : level :=
  if Z.testbit addr i then HIGH else LOW.

(** The calls of [systemRESET], [systemUNRESET], [SwitchKernal] and
    [SwitchVideo] in the order they are made. *)
Definition reset_events : list event :=
  [ DigitalWrite C64RES HIGH; PinMode C64RES INPUT; DigitalWrite C64RES HIGH;
    DigitalWrite EXROMRES LOW; PinMode EXROMRES OUTPUT;
    DigitalWrite EXROMRES LOW ].

Definition unreset_events : list event :=
  [ Delay 200;
    DigitalWrite C64RES LOW; PinMode C64RES OUTPUT; DigitalWrite C64RES LOW;
    Delay 300;
    DigitalWrite EXROMRES HIGH; PinMode EXROMRES INPUT;
    DigitalWrite EXROMRES HIGH ].

Definition address_events (addr : Z) : list event :=
  [ DigitalWrite KSW_A13 (line_of_bit addr 0);
    DigitalWrite KSW_A14 (line_of_bit addr 1);
    DigitalWrite KSW_A15 (line_of_bit addr 2) ].

Definition video_events (m : Z) : list event :=
  if m =? 0
  then [ DigitalWrite NeN LOW; DigitalWrite PeN HIGH; Delay 500;
         DigitalWrite PeN LOW ]
  else [ DigitalWrite NeN HIGH; DigitalWrite PeN LOW; Delay 500;
         DigitalWrite NeN LOW ].

Definition kernal_switch_events (addr : Z) : list event :=
  reset_events ++ address_events addr ++ [Delay 2000] ++
  unreset_events ++ [Delay 2000].

Definition video_switch_events (m : Z) : list event :=
  reset_events ++ video_events m ++ [Delay 2000] ++
  unreset_events ++ [Delay 2000].

(** The modifier-only long press: reset, two seconds, un-reset. *)
Definition long_press_events : list event :=
  reset_events ++ [Delay 2000] ++ unreset_events.

(** ** States the sketch can be in between two iterations of [loop]

    The handlers run between iterations: an interrupt that arrives while
    the mailbox is full changes nothing, and one that arrives after the
    loop has emptied the mailbox is the same as one arriving before the
    next iteration. *)
Inductive reachable : state -> Prop :=
| reach_setup e : reachable (setup (power_on e))
| reach_Row0 s pinc : reachable s -> reachable (ISR_Row0 pinc s)
| reach_Row3 s pinc : reachable s -> reachable (ISR_Row3 pinc s)
| reach_loop s pinc r : reachable s -> reachable (loop pinc r s).

(** Any number of interrupts, and nothing else. *)
Inductive interrupts : state -> state -> Prop :=
| int_none s : interrupts s s
| int_Row0 s t pinc : interrupts s t -> interrupts s (ISR_Row0 pinc t)
| int_Row3 s t pinc : interrupts s t -> interrupts s (ISR_Row3 pinc t).

(** ** The decode table as the wiring documents it

    Bit of the snapshot (column line) and the odd digit on that column, in
    priority order: column 7, 1, 2, 3, 4. *)
Definition column_table : list (Z * Z) :=
  [ (4, 1); (0, 3); (1, 5); (2, 7); (3, 9) ].

Fixpoint first_low (tbl : list (Z * Z)) (c : Z) : option Z :=
  match tbl with
  | [] => None
  | (b, d) :: tbl' => if Z.testbit c b then first_low tbl' c else Some d
  end.

Definition table_decode (c : Z) (odd : bool) : option Z :=
  match first_low column_table c with
  | None => None
  | Some d =>
      let d' := if odd then d else d + 1 in
      Some (if d' =? 10 then 0 else d')
  end.

(** * Proofs *)

(** ** Tactics *)

(** Symbolic execution.  A command applied to a state given field by
    field is run one step at a time, innermost first, and every test that
    does not evaluate splits the goal; the test is kept as an equation.
    Running the steps in this order keeps the terms small: no command is
    ever applied to an undecided conditional. *)

Ltac is_literal S :=
  lazymatch S with
  | Build_state _ _ _ _ _ _ _ _ _ _ _ _ _ _ _ => idtac
  end.

Ltac bool_props :=
  repeat match goal with
    | H : negb _ = true |- _ => apply negb_true_iff in H
    | H : negb _ = false |- _ => apply negb_false_iff in H
    | H : andb _ _ = true |- _ => apply andb_true_iff in H; destruct H
    | H : orb _ _ = false |- _ => apply orb_false_iff in H; destruct H
    | H : andb _ _ = false |- _ => apply andb_false_iff in H; destruct H
    | H : orb _ _ = true |- _ => apply orb_true_iff in H; destruct H
    | H : (_ =? _) = true |- _ => apply Z.eqb_eq in H
    | H : (_ =? _) = false |- _ => apply Z.eqb_neq in H
    | H : (_ <? _) = true |- _ => apply Z.ltb_lt in H
    | H : (_ <? _) = false |- _ => apply Z.ltb_ge in H
    | H : (_ <=? _) = true |- _ => apply Z.leb_le in H
    | H : (_ <=? _) = false |- _ => apply Z.leb_gt in H
    | H : (_ >? _) = true |- _ => rewrite Z.gtb_ltb in H
    | H : (_ >? _) = false |- _ => rewrite Z.gtb_ltb in H
    end.

(** Close a branch whose tests contradict each other or the hypotheses. *)
Ltac prune := try (exfalso; bool_props; (congruence || lia)).

Ltac proj_nf t :=
  eval cbv beta iota delta
    [ kernal_num kernal_addr np_mode restore_found restore_counter key
      columns scan_counter scan_found scan_active numPressed numOdd colData
      eeprom trace ] in t.

Ltac prim_nf t :=
  eval cbv beta iota delta
    [ EEPROM_write EEPROM_read pinMode digitalWrite delay delayMicroseconds
      attachInterrupt emit skip log_events
      set_kernal_num set_kernal_addr set_np_mode set_restore_found
      set_restore_counter set_key set_columns set_scan_counter
      set_scan_found set_scan_active set_numPressed set_numOdd set_colData
      set_eeprom set_trace
      kernal_num kernal_addr np_mode restore_found restore_counter key
      columns scan_counter scan_found scan_active numPressed numOdd colData
      eeprom trace ] in t.

Ltac head_of t :=
  lazymatch t with
  | ?g _ => head_of g
  | _ => t
  end.

(** Unfold the sketch function at the head of [f], and nothing below. *)
Ltac call_nf f :=
  let h := head_of f in
  lazymatch h with
  | loop => eval cbv beta delta [loop] in f
  | loop_scan => eval cbv beta delta [loop_scan] in f
  | loop_restore => eval cbv beta delta [loop_restore] in f
  | loop_number => eval cbv beta delta [loop_number] in f
  | setup => eval cbv beta delta [setup] in f
  | ISR_Row0 => eval cbv beta delta [ISR_Row0] in f
  | ISR_Row3 => eval cbv beta delta [ISR_Row3] in f
  | SwitchKernal => eval cbv beta delta [SwitchKernal] in f
  | SwitchVideo => eval cbv beta delta [SwitchVideo] in f
  | rearm_scan => eval cbv beta delta [rearm_scan] in f
  | systemRESET => eval cbv beta delta [systemRESET] in f
  | systemUNRESET => eval cbv beta delta [systemUNRESET] in f
  | SetAddressBits => eval cbv beta delta [SetAddressBits] in f
  | SetVideoBits => eval cbv beta delta [SetVideoBits] in f
  | _ => f
  end.

Lemma seq_step (c1 c2 : cmd) (s : state) : (c1 ;; c2) s = c2 (c1 s).
Proof. reflexivity. Qed.

(** Rewriting a call with an equation proved for it; extended below as
    the equations are proved. *)
Ltac call_eq f S := fail.

Lemma ifc_step (b : state -> bool) (c1 c2 : cmd) (s : state) :
  ifc b c1 c2 s = if b s then c1 s else c2 s.
Proof. reflexivity. Qed.

Lemma ifc_true (b : state -> bool) (c1 c2 : cmd) (s : state) :
  b s = true -> ifc b c1 c2 s = c1 s.
Proof. unfold ifc. intros ->. reflexivity. Qed.

Lemma ifc_false (b : state -> bool) (c1 c2 : cmd) (s : state) :
  b s = false -> ifc b c1 c2 s = c2 s.
Proof. unfold ifc. intros ->. reflexivity. Qed.

Lemma if_cmd_true (c : bool) (p q : cmd) (s : state) :
  c = true -> (if c then p else q) s = p s.
Proof. intros ->. reflexivity. Qed.

Lemma if_cmd_false (c : bool) (p q : cmd) (s : state) :
  c = false -> (if c then p else q) s = q s.
Proof. intros ->. reflexivity. Qed.

Lemma if_true_eq {A : Type} (c : bool) (x y : A) :
  c = true -> (if c then x else y) = x.
Proof. intros ->. reflexivity. Qed.

Lemma if_false_eq {A : Type} (c : bool) (x y : A) :
  c = false -> (if c then x else y) = y.
Proof. intros ->. reflexivity. Qed.

(** One step at the innermost command of the goal.  [C] is the goal
    around the command [f S]. *)
Ltac run_step :=
  match goal with
  | |- context C [?f ?S] =>
      is_literal S;
      lazymatch f with
      | seq ?a ?b => rewrite (seq_step a b S)
      | ifc ?b ?c1 ?c2 =>
          let B := proj_nf (b S) in
          let B' := eval vm_compute in B in
          lazymatch B' with
          | true => rewrite (ifc_true b c1 c2 S (eq_refl true))
          | false => rewrite (ifc_false b c1 c2 S (eq_refl false))
          | _ =>
              rewrite (ifc_step b c1 c2 S);
              match goal with
              | |- context D [if ?X then ?U else ?V] =>
                  let T := type of U in
                  lazymatch T with state => idtac end;
                  let G := context D [if B then U else V] in
                  change G
              end;
              let T := fresh "T" in destruct B eqn:T; prune
          end
      | if ?c then ?p else ?q =>
          let B := proj_nf c in
          constr_eq B c;
          let B' := eval vm_compute in c in
          lazymatch B' with
          | true => rewrite (if_cmd_true c p q S (eq_refl true))
          | false => rewrite (if_cmd_false c p q S (eq_refl false))
          | _ => let T := fresh "T" in destruct c eqn:T; prune
          end
      | fun _ => _ =>
          let r := eval cbv beta in (f S) in
          let G := context C [r] in change G
      | _ =>
          let f' := call_nf f in
          first
            [ call_eq f S
            | constr_eq f f';
              let r := prim_nf (f S) in
              let G := context C [r] in progress change G
            | let G := context C [f' S] in progress change G ]
      end
  | |- context C [if ?c then ?X else ?Y] =>
      let T := type of X in
      lazymatch T with state => idtac | cmd => idtac end;
      let B' := eval vm_compute in c in
      lazymatch B' with
      | true => rewrite (if_true_eq c X Y (eq_refl true))
      | false => rewrite (if_false_eq c X Y (eq_refl false))
      | _ => let T := fresh "T" in destruct c eqn:T; prune
      end
  end.

Ltac run := repeat run_step.

(** Run the program [t] and hand the resulting state to the goal. *)
Ltac run_state t :=
  let s' := fresh "s'" in
  let E := fresh "E" in
  remember t as s' eqn:E; symmetry in E; revert E; run; intros E;
  rewrite <- E in *; clear E; try clear s';
  cbv beta iota delta
    [ kernal_num kernal_addr np_mode restore_found restore_counter key
      columns scan_counter scan_found scan_active numPressed numOdd colData
      eeprom trace ].

(** Run [t], a program applied to the state variable [s], after opening
    [s] into its fields and substituting what the hypotheses say of them. *)
Ltac exec s t :=
  let s' := fresh "s'" in
  let E := fresh "E" in
  remember t as s' eqn:E; symmetry in E; revert E;
  destruct s;
  cbn [ kernal_num kernal_addr np_mode restore_found restore_counter key
        columns scan_counter scan_found scan_active numPressed numOdd
        colData eeprom trace ] in *;
  subst;
  run; intros E; rewrite <- E in *; clear E; try clear s';
  cbv beta iota delta
    [ kernal_num kernal_addr np_mode restore_found restore_counter key
      columns scan_counter scan_found scan_active numPressed numOdd colData
      eeprom trace ].

(** Bring [rev (e_n :: ... :: e_1 :: tr)] to [rev tr ++ [e_1; ...; e_n]]. *)
Ltac flatten_history :=
  cbn [rev]; repeat rewrite <- app_assoc; cbn [app].

(** ** The key decoder *)

Lemma snapshot_range (pinc : Z) : 0 <= Z.land pinc 31 < 32.
Proof.
  change 31 with (Z.ones 5).
  rewrite Z.land_ones by lia.
  apply Z.mod_pos_bound; reflexivity.
Qed.

(** A 5-bit value is one of thirty-two numbers: enough to settle the
    decoder by running it. *)
Lemma five_bit_cases (P : Z -> Prop) :
  (forall n : nat, (n < 32)%nat -> P (Z.of_nat n)) ->
  forall c, 0 <= c < 32 -> P c.
Proof.
  intros H c Hc. rewrite <- (Z2Nat.id c) by lia. apply H. lia.
Qed.

Ltac by_snapshot c Hc :=
  pattern c; apply (five_bit_cases _) with (2 := Hc); clear c Hc;
  let n := fresh "n" in
  let Hn := fresh "Hn" in
  intros n Hn;
  do 32 (try (destruct n as [|n]; [ | apply PeanoNat.lt_S_n in Hn ]));
  try (exfalso; inversion Hn; fail).

(** C6. A snapshot that is not all-high decodes, whatever the row and
    whatever [key] held before, to a digit between 0 and 9, and that digit
    is the one the wiring table gives: the first low column in the order
    7, 1, 2, 3, 4 selects 1, 3, 5, 7, 9, the even row adds one, and 10
    becomes 0.  Several low columns at once decode just the same.  (The
    all-low snapshot, which the handlers also refuse, would decode too.) *)
Theorem decode_key_total (pinc : Z) (odd : bool) (k : Z) :
  let c := Z.land pinc 31 in
  c <> 31 ->
  0 <= decode_key c odd k <= 9 /\
  table_decode c odd = Some (decode_key c odd k).
Proof.
  intros c. subst c.
  generalize (snapshot_range pinc). generalize (Z.land pinc 31).
  intros c Hc. revert odd k.
  by_snapshot c Hc; intros odd k Hne; try (exfalso; apply Hne; reflexivity);
    destruct odd; vm_compute; (split; [ split; discriminate | reflexivity ]).
Qed.

Lemma decode_key_total_witness :
  0 <= decode_key (Z.land 23 31) true 128 <= 9 /\
  table_decode (Z.land 23 31) true = Some (decode_key (Z.land 23 31) true 128).
Proof.
  apply (decode_key_total 23 true 128). vm_compute. discriminate.
Defined.

(** ** Boot-time validation *)

Definition is_eeprom_write (e : event) : bool :=
  match e with EepromWrite _ _ => true | _ => false end.

(** The EEPROM writes of a log, oldest first. *)
Definition eeprom_writes (s : state) : list event :=
  filter is_eeprom_write (history s).

Definition bad_kernal (v : Z) : bool := (v <? 1) || (v >? KMax).
Definition bad_flag (v : Z) : bool := negb (v =? 0) && negb (v =? 1).

(** C5. Whatever the EEPROM holds at power-on, after [setup] the Kernal
    number is between 1 and 8 and the scan flag and the video mode are 0 or
    1.  A stored Kernal number outside 1..8 is replaced by 1, a stored scan
    flag or video mode other than 0 and 1 is replaced by 1, and each
    replacement is written back to its cell (0, 1, 2); a value in range is
    kept and its cell is not written.  No other cell is touched. *)
Theorem setup_validates (e : Z -> Z) :
  let s := setup (power_on e) in
  1 <= kernal_num s <= 8 /\
  (scan_active s = 0 \/ scan_active s = 1) /\
  (np_mode s = 0 \/ np_mode s = 1) /\
  kernal_num s = (if bad_kernal (e KernalSlot) then 1 else e KernalSlot) /\
  scan_active s =
    (if bad_flag (e ScanActiveSlot) then 1 else e ScanActiveSlot) /\
  np_mode s = (if bad_flag (e NPModeSlot) then 1 else e NPModeSlot) /\
  eeprom s KernalSlot = kernal_num s /\
  eeprom s ScanActiveSlot = scan_active s /\
  eeprom s NPModeSlot = np_mode s /\
  (forall a, a <> KernalSlot -> a <> ScanActiveSlot -> a <> NPModeSlot ->
             eeprom s a = e a) /\
  eeprom_writes s =
    (if bad_kernal (e KernalSlot) then [EepromWrite KernalSlot 1] else []) ++
    (if bad_flag (e ScanActiveSlot)
     then [EepromWrite ScanActiveSlot 1] else []) ++
    (if bad_flag (e NPModeSlot) then [EepromWrite NPModeSlot 1] else []).
Proof.
  intro s. subst s. unfold eeprom_writes, history.
  unfold power_on.
  run_state (setup {|
    kernal_num := 0; kernal_addr := 0; np_mode := 1;
    restore_found := false;  restore_counter := 0;
    key := 128; columns := 0; scan_counter := 0;
    scan_found := false;  scan_active := 1;
    numPressed := false;  numOdd := false;  colData := 31;
    eeprom := e; trace := []  |}).
  all: unfold bad_kernal, bad_flag, upd, KernalSlot, ScanActiveSlot,
         NPModeSlot, KMax in *.
  all: cbn [Z.eqb Pos.eqb] in *.
  all: repeat match goal with
         | H : _ = _ :> bool |- _ => rewrite H; revert H
         end; intros.
  all: bool_props; repeat split; try lia; try reflexivity; auto.
  all: try (left; lia); try (right; lia).
  all: intros a ? ? ?;
    repeat match goal with
      | |- context [a =? ?k] =>
          let Ha := fresh in destruct (a =? k) eqn:Ha;
          [ apply Z.eqb_eq in Ha; lia | clear Ha ]
      end; reflexivity.
Qed.

(** ** The interrupt handlers *)

Lemma ISR_Row0_pending (pinc : Z) (s : state) :
  numPressed s = true -> ISR_Row0 pinc s = s.
Proof. intros H. exec s (ISR_Row0 pinc s). reflexivity. Qed.

Lemma ISR_Row3_pending (pinc : Z) (s : state) :
  numPressed s = true -> ISR_Row3 pinc s = s.
Proof. intros H. exec s (ISR_Row3 pinc s). reflexivity. Qed.

(** What a handler does to an empty mailbox. *)
Lemma ISR_Row0_empty (pinc : Z) (s : state) :
  numPressed s = false ->
  ISR_Row0 pinc s =
  set_numPressed (negb (Z.land pinc 31 =? 31) && negb (Z.land pinc 31 =? 0))
    (set_numOdd true (set_scan_found true (set_colData (Z.land pinc 31) s))).
Proof.
  intros H. exec s (ISR_Row0 pinc s);
    cbv [set_numPressed set_numOdd set_scan_found set_colData
         kernal_num kernal_addr np_mode restore_found restore_counter key
         columns scan_counter scan_found scan_active numPressed numOdd
         colData eeprom trace]; reflexivity.
Qed.

Lemma ISR_Row3_empty (pinc : Z) (s : state) :
  numPressed s = false ->
  ISR_Row3 pinc s =
  set_numPressed (negb (Z.land pinc 31 =? 31) && negb (Z.land pinc 31 =? 0))
    (set_numOdd false (set_scan_found true (set_colData (Z.land pinc 31) s))).
Proof.
  intros H. exec s (ISR_Row3 pinc s);
    cbv [set_numPressed set_numOdd set_scan_found set_colData
         kernal_num kernal_addr np_mode restore_found restore_counter key
         columns scan_counter scan_found scan_active numPressed numOdd
         colData eeprom trace]; reflexivity.
Qed.

Lemma filter_passed (c : Z) :
  negb (c =? 31) && negb (c =? 0) = true <-> c <> 31 /\ c <> 0.
Proof. rewrite andb_true_iff, !negb_true_iff, !Z.eqb_neq. tauto. Qed.

Lemma ISR_sets_pending (t : state) (q : Z) :
  numPressed t = false ->
  let c := Z.land q 31 in
  (numPressed (ISR_Row0 q t) = true <-> c <> 31 /\ c <> 0) /\
  (numPressed (ISR_Row3 q t) = true <-> c <> 31 /\ c <> 0).
Proof.
  intros H c. rewrite ISR_Row0_empty, ISR_Row3_empty by assumption.
  cbn. split; apply filter_passed.
Qed.

Lemma ISR_first_capture (first : Z -> cmd) (p : Z) (s : state) :
  first = ISR_Row0 \/ first = ISR_Row3 ->
  numPressed s = false ->
  colData (first p s) = Z.land p 31 /\
  (if numOdd (first p s) then first = ISR_Row0 else first = ISR_Row3) /\
  key (first p s) = key s /\
  (numPressed (first p s) = true -> Z.land p 31 <> 31 /\ Z.land p 31 <> 0).
Proof.
  intros [-> | ->] H;
    [ rewrite ISR_Row0_empty by assumption
    | rewrite ISR_Row3_empty by assumption ];
    cbn; (repeat split; try reflexivity); intros Hc;
    apply filter_passed in Hc; tauto.
Qed.

(** C9. The mailbox holds one event.  A row interrupt that finds the
    pending flag set changes nothing at all, so the snapshot, the row flag
    and the pending flag stay those of the first interrupt; an interrupt
    that finds the mailbox empty sets the pending flag exactly when its
    snapshot is neither all-high (31) nor all-low (0).  Hence, when a first
    handler captured an event from an empty mailbox and a second interrupt
    fires before the loop runs, the state is that left by the first, and the
    digit the loop will decode is that of the first snapshot and row. *)
Theorem second_interrupt_dropped
    (s : state) (p1 p2 : Z) (first second : Z -> cmd) :
  first = ISR_Row0 \/ first = ISR_Row3 ->
  second = ISR_Row0 \/ second = ISR_Row3 ->
  numPressed s = false ->
  numPressed (first p1 s) = true ->
  let s1 := first p1 s in
  let s2 := second p2 s1 in
  s2 = s1 /\
  colData s2 = Z.land p1 31 /\
  (if numOdd s2 then first = ISR_Row0 else first = ISR_Row3) /\
  Z.land p1 31 <> 31 /\ Z.land p1 31 <> 0 /\
  pending_digit s2 = decode_key (Z.land p1 31) (numOdd s1) (key s) /\
  (forall q r, loop q r s2 = loop q r s1) /\
  (forall t q, numPressed t = true ->
               ISR_Row0 q t = t /\ ISR_Row3 q t = t) /\
  (forall t q, numPressed t = false ->
     let c := Z.land q 31 in
     (numPressed (ISR_Row0 q t) = true <-> c <> 31 /\ c <> 0) /\
     (numPressed (ISR_Row3 q t) = true <-> c <> 31 /\ c <> 0)).
Proof.
  intros Hf Hs Hempty Hcap s1 s2.
  assert (Hdrop : s2 = s1).
  { subst s2. destruct Hs as [-> | ->];
      [ apply ISR_Row0_pending | apply ISR_Row3_pending ]; exact Hcap. }
  destruct (ISR_first_capture first p1 s Hf Hempty) as (Hc & Ho & Hk & Hn).
  specialize (Hn Hcap). fold s1 in Hc, Ho, Hk.
  rewrite Hdrop. unfold pending_digit. rewrite Hc, Hk.
  split; [ reflexivity | ].
  split; [ reflexivity | ].
  split; [ exact Ho | ].
  split; [ tauto | ].
  split; [ tauto | ].
  split; [ reflexivity | ].
  split; [ reflexivity | ].
  split.
  - intros t q Ht. split;
      [ apply ISR_Row0_pending | apply ISR_Row3_pending ]; exact Ht.
  - intros t q Ht. apply ISR_sets_pending. exact Ht.
Qed.

(** Row 0 fires with column 2 low (key "5"), then row 3 fires with column 7
    low before the loop has run: the mailbox still holds the "5". *)
Lemma second_interrupt_dropped_witness :
  let s := setup (power_on (fun _ => 255)) in
  ISR_Row3 15 (ISR_Row0 29 s) = ISR_Row0 29 s /\
  pending_digit (ISR_Row3 15 (ISR_Row0 29 s)) = 5.
Proof.
  intro s.
  assert (He : numPressed s = false) by (vm_compute; reflexivity).
  assert (Hc : numPressed (ISR_Row0 29 s) = true)
    by (vm_compute; reflexivity).
  assert (H := second_interrupt_dropped s 29 15 ISR_Row0 ISR_Row3
                 (or_introl eq_refl) (or_intror eq_refl) He Hc).
  cbv zeta in H. destruct H as (H1 & _ & _ & _ & _ & H2 & _).
  split; [ exact H1 | rewrite H2; vm_compute; reflexivity ].
Defined.

(** ** The reset sequencer in closed form *)

Lemma land_pow2_eqb (a i : Z) :
  0 <= i -> (Z.land a (2 ^ i) =? 0) = negb (Z.testbit a i).
Proof.
  intros Hi. destruct (Z.testbit a i) eqn:E; cbn [negb].
  - apply Z.eqb_neq. intros H.
    assert (Hb : Z.testbit (Z.land a (2 ^ i)) i = true)
      by (rewrite Z.land_spec, E, Z.pow2_bits_true by lia; reflexivity).
    rewrite H, Z.bits_0 in Hb. discriminate.
  - apply Z.eqb_eq. apply Z.bits_inj'. intros n Hn.
    rewrite Z.land_spec, Z.bits_0.
    destruct (Z.eq_dec n i) as [-> | Hne].
    + rewrite E. reflexivity.
    + rewrite Z.pow2_bits_false by lia. apply andb_false_r.
Qed.

Lemma address_line (a i : Z) :
  0 <= i ->
  (if Z.land a (2 ^ i) =? 0 then LOW else HIGH) = line_of_bit a i.
Proof.
  intros Hi. unfold line_of_bit. rewrite land_pow2_eqb by assumption.
  destruct (Z.testbit a i); reflexivity.
Qed.

Lemma systemRESET_eq (s : state) :
  systemRESET s = log_events reset_events s.
Proof. destruct s. reflexivity. Qed.

Lemma systemUNRESET_eq (s : state) :
  systemUNRESET s = log_events unreset_events s.
Proof. destruct s. reflexivity. Qed.

Lemma SetAddressBits_eq (a : Z) (s : state) :
  SetAddressBits a s = log_events (address_events a) s.
Proof.
  unfold address_events.
  rewrite <- (address_line a 0), <- (address_line a 1),
          <- (address_line a 2) by lia.
  change (2 ^ 0) with 1. change (2 ^ 1) with 2. change (2 ^ 2) with 4.
  exec s (SetAddressBits a s); reflexivity.
Qed.

Lemma SetVideoBits_eq (m : Z) (s : state) :
  SetVideoBits m s = log_events (video_events m) s.
Proof.
  unfold video_events. exec s (SetVideoBits m s); reflexivity.
Qed.

Ltac call_eq f S ::=
  lazymatch f with
  | systemRESET => rewrite (systemRESET_eq S)
  | systemUNRESET => rewrite (systemUNRESET_eq S)
  | SetAddressBits ?a => rewrite (SetAddressBits_eq a S)
  | SetVideoBits ?m => rewrite (SetVideoBits_eq m S)
  end.

Ltac same_log :=
  unfold kernal_switch_events, video_switch_events, long_press_events,
    reset_events, unreset_events, address_events;
  cbn [rev app]; repeat rewrite <- app_assoc; cbn [rev app].

Lemma SwitchKernal_eq (s : state) :
  SwitchKernal s =
  set_scan_found (negb (scan_active s =? 1))
    (set_scan_counter Default_Scan_Count
       (log_events (kernal_switch_events (kernal_addr s)) s)).
Proof.
  exec s (SwitchKernal s); same_log; reflexivity.
Qed.

Lemma SwitchVideo_eq (s : state) :
  SwitchVideo s =
  set_scan_found (negb (scan_active s =? 1))
    (set_scan_counter Default_Scan_Count
       (log_events (video_switch_events (np_mode s)) s)).
Proof.
  exec s (SwitchVideo s); same_log; try reflexivity.
  all: unfold video_events; destruct (np_mode0 =? 0); reflexivity.
Qed.

Ltac call_eq f S ::=
  lazymatch f with
  | systemRESET => rewrite (systemRESET_eq S)
  | systemUNRESET => rewrite (systemUNRESET_eq S)
  | SetAddressBits ?a => rewrite (SetAddressBits_eq a S)
  | SetVideoBits ?m => rewrite (SetVideoBits_eq m S)
  | SwitchKernal => rewrite (SwitchKernal_eq S)
  | SwitchVideo => rewrite (SwitchVideo_eq S)
  end.

(** ** Chorded digits *)

Lemma byte_small (x : Z) : 0 <= x < 256 -> byte x = x.
Proof. intros H. unfold byte. apply Z.mod_small. exact H. Qed.

Lemma address_lines_after_switch (a : Z) (tr : list event) :
  let tr' := rev (kernal_switch_events a) ++ tr in
  pin_level tr' KSW_A13 = line_of_bit a 0 /\
  pin_level tr' KSW_A14 = line_of_bit a 1 /\
  pin_level tr' KSW_A15 = line_of_bit a 2.
Proof. cbv zeta. same_log. repeat split; reflexivity. Qed.

(** [rev] of a log built by the sketch, as the old history followed by the
    new calls. *)
Lemma rev_cons_app {A : Type} (x : A) (l : list A) :
  rev (x :: l) = rev l ++ [x].
Proof. reflexivity. Qed.

Ltac history_eq :=
  repeat (rewrite rev_app_distr || rewrite rev_involutive
          || rewrite rev_cons_app);
  cbn [rev]; repeat rewrite <- app_assoc; cbn [app]; try reflexivity.

Ltac store_eq :=
  unfold upd, KernalSlot, ScanActiveSlot, NPModeSlot; cbn [Z.eqb Pos.eqb];
  try reflexivity.

(** C1. When the loop consumes a pending event that decodes to a digit d
    between 1 and 8 and RESTORE reads low, then at the end of the iteration
    the Kernal number is d and the scan flag is 1, EEPROM cell 0 holds d and
    cell 1 holds 1, the lines A13, A14, A15 carry bits 0, 1, 2 of d - 1, and
    the calls made after the watchdog and RESTORE sections are exactly: the
    two EEPROM writes, the reset sequence of [SwitchKernal] with address
    d - 1, and the closing one-millisecond delay.  The scan countdown is
    re-armed and the event is consumed. *)
Theorem digit_selects_bank (s : state) (pinc d : Z) :
  numPressed s = true -> pending_digit s = d -> 1 <= d <= 8 ->
  let s0 := loop_restore LOW (loop_scan pinc s) in
  let s' := loop pinc LOW s in
  kernal_num s' = d /\ scan_active s' = 1 /\
  eeprom s' KernalSlot = d /\ eeprom s' ScanActiveSlot = 1 /\
  pin_level (trace s') KSW_A13 = line_of_bit (d - 1) 0 /\
  pin_level (trace s') KSW_A14 = line_of_bit (d - 1) 1 /\
  pin_level (trace s') KSW_A15 = line_of_bit (d - 1) 2 /\
  history s' =
    history s0 ++
    [EepromWrite KernalSlot d; EepromWrite ScanActiveSlot 1] ++
    kernal_switch_events (d - 1) ++ [DelayMicroseconds 1000] /\
  scan_counter s' = Default_Scan_Count /\
  scan_found s' = false /\
  numPressed s' = false.
Proof.
  intros Hp Hd Hr s0 s'. subst s0 s'. unfold pending_digit, history in *.
  exec s (loop pinc LOW s);
    rewrite ?byte_small by lia;
    cbn [pin_level];
    repeat match goal with
      | |- context [pin_level (rev (kernal_switch_events ?a) ++ ?tr)] =>
          let H := fresh in
          destruct (address_lines_after_switch a tr) as (H & ? & ?);
          cbv zeta in H; rewrite H; clear H
      end;
    repeat split; try reflexivity; try assumption; try store_eq;
    history_eq.
Qed.

(** RESTORE is held and row 0 has reported column 2 low: key "5". *)
Lemma digit_selects_bank_witness :
  let s := ISR_Row0 29 (setup (power_on (fun _ => 255))) in
  let s' := loop 31 LOW s in
  kernal_num s' = 5 /\ eeprom s' KernalSlot = 5 /\
  eeprom s' ScanActiveSlot = 1 /\
  pin_level (trace s') KSW_A13 = LOW /\
  pin_level (trace s') KSW_A14 = LOW /\
  pin_level (trace s') KSW_A15 = HIGH.
Proof.
  intros s s'.
  assert (Hr : 1 <= 5 <= 8) by lia.
  assert (Hn : numPressed s = true) by (vm_compute; reflexivity).
  assert (Hd : pending_digit s = 5) by (vm_compute; reflexivity).
  assert (H := digit_selects_bank s 31 5 Hn Hd Hr).
  cbv zeta in H. fold s' in H.
  destruct H as (H1 & _ & H3 & H4 & H5 & H6 & H7 & _).
  split; [ exact H1 | ].
  split; [ exact H3 | ].
  split; [ exact H4 | ].
  split; [ exact H5 | ].
  split; [ exact H6 | exact H7 ].
Defined.

(** ** What holds between iterations *)

Lemma int16_small (x : Z) : -32768 <= x < 32768 -> int16 x = x.
Proof. intros H. unfold int16. rewrite Z.mod_small by lia. lia. Qed.

Record invariant (s : state) : Prop := {
  inv_kernal : 1 <= kernal_num s <= KMax;
  inv_addr : kernal_addr s = kernal_num s - 1;
  inv_scan_flag : scan_active s = 0 \/ scan_active s = 1;
  inv_video : np_mode s = 0 \/ np_mode s = 1;
  inv_store_kernal : eeprom s KernalSlot = kernal_num s;
  inv_store_scan : eeprom s ScanActiveSlot = scan_active s;
  inv_store_video : eeprom s NPModeSlot = np_mode s;
  inv_key : key s = 128;
  inv_scan_counter : 0 <= scan_counter s <= Default_Scan_Count;
  inv_restore_counter : 0 <= restore_counter s <= Default_Restore_Count;
  inv_pending_seen : numPressed s = true -> scan_found s = true;
  inv_pending_filter :
    numPressed s = true -> colData s <> 31 /\ colData s <> 0;
  inv_snapshot : 0 <= colData s < 32
}.

Ltac inv_solve :=
  constructor;
  cbn [ kernal_num kernal_addr np_mode restore_found restore_counter key
        columns scan_counter scan_found scan_active numPressed numOdd
        colData eeprom trace ];
  unfold KMax, Default_Scan_Count, Default_Restore_Count in *;
  rewrite ?byte_small, ?int16_small by lia;
  try store_eq; try reflexivity; try assumption; try lia;
  try (intros; discriminate); try (left; lia); try (right; lia); auto;
  try (intros; repeat split; (congruence || lia || tauto)).

Lemma invariant_setup (e : Z -> Z) : invariant (setup (power_on e)).
Proof.
  unfold power_on.
  match goal with |- invariant ?t => run_state t end.
  all: unfold upd, KernalSlot, ScanActiveSlot, NPModeSlot, KMax in *;
    cbn [Z.eqb Pos.eqb] in *; bool_props; inv_solve.
Qed.

Lemma invariant_ISR_Row0 (pinc : Z) (s : state) :
  invariant s -> invariant (ISR_Row0 pinc s).
Proof.
  intros [ ]. pose proof (snapshot_range pinc).
  exec s (ISR_Row0 pinc s); bool_props; inv_solve.
Qed.

Lemma invariant_ISR_Row3 (pinc : Z) (s : state) :
  invariant s -> invariant (ISR_Row3 pinc s).
Proof.
  intros [ ]. pose proof (snapshot_range pinc).
  exec s (ISR_Row3 pinc s); bool_props; inv_solve.
Qed.

Lemma invariant_loop (pinc : Z) (r : level) (s : state) :
  invariant s -> invariant (loop pinc r s).
Proof.
  intros [ ].
  exec s (loop pinc r s).
  all: bool_props.
  all: inv_solve.
Qed.

Theorem reachable_invariant (s : state) : reachable s -> invariant s.
Proof.
  induction 1;
    auto using invariant_setup, invariant_ISR_Row0, invariant_ISR_Row3,
               invariant_loop.
Qed.

(** ** The scan watchdog *)

(** C2. Between iterations, with the scan flag at 1, no scan seen yet, the
    countdown at zero and all five column lines reading high, the next
    iteration of the loop sets the Kernal number to 1, leaves the scan flag
    as it is, writes 1 to EEPROM cell 0, runs the reset sequence of
    [SwitchKernal] with address 0 right after that write, and ends with the
    detection flag clear and the countdown back at its default; the three
    address lines are low. *)
Theorem watchdog_recovers (s : state) (pinc : Z) (r : level) :
  reachable s ->
  scan_active s = 1 -> scan_found s = false -> scan_counter s = 0 ->
  Z.land pinc 31 = 31 ->
  let s' := loop pinc r s in
  kernal_num s' = 1 /\ scan_active s' = scan_active s /\
  eeprom s' KernalSlot = 1 /\
  scan_found s' = false /\ scan_counter s' = Default_Scan_Count /\
  pin_level (trace s') KSW_A13 = LOW /\
  pin_level (trace s') KSW_A14 = LOW /\
  pin_level (trace s') KSW_A15 = LOW /\
  exists post,
    history s' =
      history s ++ [EepromWrite KernalSlot 1] ++
      kernal_switch_events 0 ++ post.
Proof.
  intros Hreach Ha Hf Hc Hp s'. subst s'.
  destruct (reachable_invariant s Hreach)
    as [Hk Had Hsf Hv Hs0 Hs1 Hs2 Hkey Hsc Hrc Hps Hpf Hsnap].
  assert (Hn : numPressed s = false).
  { destruct (numPressed s); [ | reflexivity ].
    rewrite Hps in Hf by reflexivity. discriminate. }
  clear Hps Hpf Hreach. unfold history.
  exec s (loop pinc r s);
    change (byte (1 - 1)) with 0;
    cbn [pin_level];
    repeat match goal with
      | |- context [pin_level (rev (kernal_switch_events ?a) ++ ?tr)] =>
          let H := fresh in
          destruct (address_lines_after_switch a tr) as (H & ? & ?);
          cbv zeta in H; rewrite H; clear H
      end;
    repeat split; try reflexivity; try assumption; try store_eq;
    eexists; history_eq.
Qed.

Lemma reachable_iter (n : N) (pinc : Z) (r : level) (s : state) :
  reachable s -> reachable (N.iter n (loop pinc r) s).
Proof.
  intros H. induction n as [ | n IH ] using N.peano_ind.
  - exact H.
  - rewrite N.iter_succ. apply reach_loop. exact IH.
Qed.

(** Bank 5 is stored with the scan flag set; nothing scans the keyboard
    for ten thousand iterations; the next one falls back to bank 1. *)
Lemma watchdog_recovers_witness :
  let e := fun a : Z => if a =? 0 then 5 else 1 in
  let s := N.iter 10000 (loop 31 HIGH) (setup (power_on e)) in
  kernal_num s = 5 /\
  kernal_num (loop 31 HIGH s) = 1 /\
  eeprom (loop 31 HIGH s) KernalSlot = 1.
Proof.
  intros e s.
  assert (Hr : reachable s) by (apply reachable_iter; apply reach_setup).
  assert (Ha : scan_active s = 1) by (vm_compute; reflexivity).
  assert (Hf : scan_found s = false) by (vm_compute; reflexivity).
  assert (Hc : scan_counter s = 0) by (vm_compute; reflexivity).
  assert (Hp : Z.land 31 31 = 31) by reflexivity.
  destruct (watchdog_recovers s 31 HIGH Hr Ha Hf Hc Hp) as (H1 & _ & H3 & _).
  split; [ vm_compute; reflexivity | split; assumption ].
Defined.

(** With the scan flag at 0 the watchdog section changes neither the
    Kernal number nor the EEPROM and touches no pin; at most it waits 33
    microseconds. *)
Lemma loop_scan_inert (t : state) (q : Z) :
  scan_active t = 0 ->
  let t' := loop_scan q t in
  kernal_num t' = kernal_num t /\ scan_active t' = 0 /\
  eeprom t' = eeprom t /\
  (history t' = history t \/
   history t' = history t ++ [DelayMicroseconds 33]) /\
  (scan_found t = false -> scan_counter t <= 0 -> Z.land q 31 = 31 ->
   scan_found t' = true /\ scan_counter t' = Default_Scan_Count /\
   history t' = history t).
Proof.
  intros Ha t'. subst t'. unfold history.
  exec t (loop_scan q t);
    (repeat split; try reflexivity; try (intros; (discriminate || lia));
     try (left; reflexivity); try (right; history_eq));
    intros; bool_props; try congruence; try lia.
Qed.

(** The same for a whole iteration while RESTORE reads high. *)
Lemma loop_released_inert (t : state) (q : Z) :
  scan_active t = 0 ->
  let t' := loop q HIGH t in
  kernal_num t' = kernal_num t /\ scan_active t' = 0 /\
  np_mode t' = np_mode t /\ eeprom t' = eeprom t /\
  (history t' = history t ++ [DelayMicroseconds 1000] \/
   history t' =
     history t ++ [DelayMicroseconds 33; DelayMicroseconds 1000]).
Proof.
  intros Ha t'. subst t'. unfold history.
  exec t (loop q HIGH t);
    (repeat split; try reflexivity;
     try (left; history_eq; fail); try (right; history_eq; fail)).
Qed.

(** C3. When the loop consumes a pending event that decodes to 0 and
    RESTORE reads low, the Kernal number becomes 1 and the scan flag 0,
    both are written to their EEPROM cells, the reset sequence runs with
    address 0 and the detection flag is left set.  From then on, in any
    state whose scan flag is 0, the watchdog section never selects a bank,
    never writes the EEPROM and never touches a pin, also when its
    countdown is at zero: it re-arms the countdown and sets the detection
    flag; and a whole iteration with RESTORE released does no more. *)
Theorem digit_zero_disables_watchdog (s : state) (pinc : Z) :
  numPressed s = true -> pending_digit s = 0 ->
  let s0 := loop_restore LOW (loop_scan pinc s) in
  let s' := loop pinc LOW s in
  (kernal_num s' = 1 /\ scan_active s' = 0 /\
   eeprom s' KernalSlot = 1 /\ eeprom s' ScanActiveSlot = 0 /\
   scan_found s' = true /\
   history s' =
     history s0 ++
     [EepromWrite KernalSlot 1; EepromWrite ScanActiveSlot 0] ++
     kernal_switch_events 0 ++ [DelayMicroseconds 1000]) /\
  (forall t q, scan_active t = 0 ->
     let t' := loop_scan q t in
     kernal_num t' = kernal_num t /\ scan_active t' = 0 /\
     eeprom t' = eeprom t /\
     (history t' = history t \/
      history t' = history t ++ [DelayMicroseconds 33]) /\
     (scan_found t = false -> scan_counter t <= 0 -> Z.land q 31 = 31 ->
      scan_found t' = true /\ scan_counter t' = Default_Scan_Count /\
      history t' = history t)) /\
  (forall t q, scan_active t = 0 ->
     let t' := loop q HIGH t in
     kernal_num t' = kernal_num t /\ scan_active t' = 0 /\
     np_mode t' = np_mode t /\ eeprom t' = eeprom t /\
     (history t' = history t ++ [DelayMicroseconds 1000] \/
      history t' =
        history t ++ [DelayMicroseconds 33; DelayMicroseconds 1000])).
Proof.
  intros Hp Hd s0 s'. subst s0 s'.
  split; [ | split; [ exact loop_scan_inert | exact loop_released_inert ] ].
  unfold pending_digit, history in *.
  exec s (loop pinc LOW s);
    change (byte (1 - 1)) with 0;
    repeat split; try reflexivity; try store_eq; history_eq.
Qed.

(** Row 3 reports column 4 low (key "0") while RESTORE is held. *)
Lemma digit_zero_disables_watchdog_witness :
  let s := ISR_Row3 23 (setup (power_on (fun _ => 255))) in
  let s' := loop 31 LOW s in
  kernal_num s' = 1 /\ scan_active s' = 0 /\
  eeprom s' ScanActiveSlot = 0 /\ scan_found s' = true.
Proof.
  intros s s'.
  assert (Hn : numPressed s = true) by (vm_compute; reflexivity).
  assert (Hd : pending_digit s = 0) by (vm_compute; reflexivity).
  destruct (digit_zero_disables_watchdog s 31 Hn Hd)
    as ((H1 & H2 & _ & H4 & H5 & _) & _).
  split; [ exact H1 | split; [ exact H2 | split; [ exact H4 | exact H5 ] ] ].
Defined.

(** ** Chord gating *)

(** The number-key section of the loop, entered with [restore_found]
    false, changes nothing but [key]. *)
Lemma loop_number_unchorded (t : state) :
  restore_found t = false ->
  loop_number t =
  set_key (if numPressed t then pending_digit t else key t) t.
Proof.
  intros H. unfold pending_digit.
  exec t (loop_number t); reflexivity.
Qed.

(** C4. Between iterations, when an event is pending and RESTORE reads
    high, the iteration that consumes the event leaves the Kernal number,
    the scan flag, the video mode and the whole EEPROM as they were and
    makes no call but the closing one-millisecond delay: no pin is
    written, nothing is stored, no reset sequence runs.  The event is
    gone afterwards. *)
Theorem unchorded_event_discarded (s : state) (pinc : Z) :
  reachable s -> numPressed s = true ->
  let s' := loop pinc HIGH s in
  kernal_num s' = kernal_num s /\ scan_active s' = scan_active s /\
  np_mode s' = np_mode s /\
  eeprom s' = eeprom s /\
  history s' = history s ++ [DelayMicroseconds 1000] /\
  numPressed s' = false /\ key s' = 128.
Proof.
  intros Hreach Hp s'. subst s'.
  pose proof (inv_pending_seen s (reachable_invariant s Hreach) Hp) as Hf.
  clear Hreach. unfold history.
  exec s (loop pinc HIGH s); repeat split; reflexivity.
Qed.

(** Row 0 has reported key "5" but RESTORE is not held. *)
Lemma unchorded_event_discarded_witness :
  let s := ISR_Row0 29 (setup (power_on (fun _ => 255))) in
  let s' := loop 31 HIGH s in
  kernal_num s' = kernal_num s /\ eeprom s' = eeprom s /\
  history s' = history s ++ [DelayMicroseconds 1000].
Proof.
  intros s s'.
  assert (Hr : reachable s) by (apply reach_Row0; apply reach_setup).
  assert (Hn : numPressed s = true) by (vm_compute; reflexivity).
  pose proof (unchorded_event_discarded s 31 Hr Hn) as H.
  cbv zeta in H.
  destruct H as (H1 & _ & _ & H4 & H5 & _).
  split; [ exact H1 | split; [ exact H4 | exact H5 ] ].
Defined.

(** ** The video toggle *)

(** Interrupts leave the selection, the EEPROM and the log alone, and
    lead from reachable states to reachable states. *)
Lemma interrupts_frame (s t : state) :
  interrupts s t ->
  kernal_num t = kernal_num s /\ scan_active t = scan_active s /\
  np_mode t = np_mode s /\ eeprom t = eeprom s /\ trace t = trace s /\
  (reachable s -> reachable t).
Proof.
  induction 1 as [ s | s t pinc _ IH | s t pinc _ IH ].
  - repeat split; auto.
  - destruct IH as (H1 & H2 & H3 & H4 & H5 & H6).
    destruct (numPressed t) eqn:Hn.
    + rewrite ISR_Row0_pending by assumption. repeat split; auto.
    + repeat split; auto using reach_Row0;
        rewrite ISR_Row0_empty by assumption; cbn; assumption.
  - destruct IH as (H1 & H2 & H3 & H4 & H5 & H6).
    destruct (numPressed t) eqn:Hn.
    + rewrite ISR_Row3_pending by assumption. repeat split; auto.
    + repeat split; auto using reach_Row3;
        rewrite ISR_Row3_empty by assumption; cbn; assumption.
Qed.

(** One RESTORE + 9 gesture. *)
Lemma nine_step (s : state) (pinc : Z) :
  reachable s -> numPressed s = true -> pending_digit s = 9 ->
  let s1 := loop pinc LOW s in
  np_mode s1 = (if np_mode s =? 1 then 0 else 1) /\
  np_mode s1 = 1 - np_mode s /\
  eeprom s1 NPModeSlot = np_mode s1 /\
  kernal_num s1 = kernal_num s /\ scan_active s1 = scan_active s /\
  eeprom s1 KernalSlot = eeprom s KernalSlot /\
  eeprom s1 ScanActiveSlot = eeprom s ScanActiveSlot /\
  history s1 =
    history (loop_restore LOW s) ++
    [EepromWrite NPModeSlot (np_mode s1)] ++
    video_switch_events (np_mode s1) ++ [DelayMicroseconds 1000].
Proof.
  intros Hreach Hp Hd s1. subst s1.
  destruct (reachable_invariant s Hreach)
    as [Hk Had Hsf Hv Hs0 Hs1 Hs2 Hkey Hsc Hrc Hps Hpf Hsnap].
  specialize (Hps Hp). clear Hreach Hpf Hs0 Hs1 Hs2.
  unfold pending_digit, history in *.
  exec s (loop pinc LOW s);
    repeat split; try reflexivity; try store_eq; try lia; history_eq.
Qed.

(** C8. Between iterations, when the loop consumes a pending event that
    decodes to 9 and RESTORE reads low, the video mode flips (1 becomes 0,
    0 becomes 1), the new mode is written to EEPROM cell 2 and applied by
    the reset sequence of [SwitchVideo], and the Kernal number, the scan
    flag and EEPROM cells 0 and 1 are unchanged.  After a second such
    gesture, with only interrupts in between, the video mode is the
    original one and the Kernal number and the scan flag are still
    unchanged. *)
Theorem digit_nine_toggles_video (s : state) (p1 : Z) :
  reachable s -> numPressed s = true -> pending_digit s = 9 ->
  let s1 := loop p1 LOW s in
  np_mode s1 = (if np_mode s =? 1 then 0 else 1) /\
  np_mode s1 <> np_mode s /\
  eeprom s1 NPModeSlot = np_mode s1 /\
  kernal_num s1 = kernal_num s /\ scan_active s1 = scan_active s /\
  eeprom s1 KernalSlot = eeprom s KernalSlot /\
  eeprom s1 ScanActiveSlot = eeprom s ScanActiveSlot /\
  history s1 =
    history (loop_restore LOW s) ++
    [EepromWrite NPModeSlot (np_mode s1)] ++
    video_switch_events (np_mode s1) ++ [DelayMicroseconds 1000] /\
  (forall s1' p2,
     interrupts s1 s1' -> numPressed s1' = true -> pending_digit s1' = 9 ->
     let s2 := loop p2 LOW s1' in
     np_mode s2 = np_mode s /\
     kernal_num s2 = kernal_num s /\ scan_active s2 = scan_active s /\
     eeprom s2 KernalSlot = eeprom s KernalSlot /\
     eeprom s2 ScanActiveSlot = eeprom s ScanActiveSlot /\
     eeprom s2 NPModeSlot = np_mode s).
Proof.
  intros Hreach Hp Hd s1.
  destruct (nine_step s p1 Hreach Hp Hd)
    as (Ht & Hm & He & Hk & Hs & Hk0 & Hs0 & Hh).
  fold s1 in Ht, Hm, He, Hk, Hs, Hk0, Hs0, Hh.
  repeat (split; [ first [ assumption | lia ] | ]).
  intros s1' p2 Hint Hp' Hd' s2.
  destruct (interrupts_frame s1 s1' Hint) as (F1 & F2 & F3 & F4 & _ & Fr).
  assert (Hreach' : reachable s1')
    by (apply Fr; apply reach_loop; exact Hreach).
  destruct (nine_step s1' p2 Hreach' Hp' Hd')
    as (_ & Hm' & He' & Hk' & Hs' & Hk0' & Hs0' & _).
  fold s2 in Hm', He', Hk', Hs', Hk0', Hs0'.
  rewrite F4 in Hk0', Hs0'.
  repeat split; try congruence; lia.
Qed.

(** Two RESTORE + 9 gestures in a row, starting in NTSC mode. *)
Lemma digit_nine_toggles_video_witness :
  let s := ISR_Row0 23 (setup (power_on (fun _ => 255))) in
  let s1 := loop 31 LOW s in
  let s2 := loop 31 LOW (ISR_Row0 23 s1) in
  np_mode s = 1 /\ np_mode s1 = 0 /\ np_mode s2 = 1 /\
  kernal_num s2 = kernal_num s.
Proof.
  intros s s1 s2.
  assert (Hr : reachable s) by (apply reach_Row0; apply reach_setup).
  assert (Hn : numPressed s = true) by (vm_compute; reflexivity).
  assert (Hd : pending_digit s = 9) by (vm_compute; reflexivity).
  destruct (digit_nine_toggles_video s 31 Hr Hn Hd)
    as (H1 & _ & _ & _ & _ & _ & _ & _ & H2).
  fold s1 in H1, H2.
  assert (Hi : interrupts s1 (ISR_Row0 23 s1)) by (apply int_Row0, int_none).
  assert (Hn' : numPressed (ISR_Row0 23 s1) = true)
    by (vm_compute; reflexivity).
  assert (Hd' : pending_digit (ISR_Row0 23 s1) = 9)
    by (vm_compute; reflexivity).
  destruct (H2 _ 31 Hi Hn' Hd') as (G1 & G2 & _).
  fold s2 in G1, G2.
  assert (Hs : np_mode s = 1) by (vm_compute; reflexivity).
  split; [ exact Hs | ].
  split; [ rewrite H1, Hs; reflexivity | ].
  split; [ rewrite G1; exact Hs | exact G2 ].
Defined.

(** ** The RESTORE long press *)

(** The RESTORE section of the loop with the line low and the countdown
    expired. *)
Lemma loop_restore_expired (u : state) :
  restore_counter u <= 0 ->
  loop_restore LOW u =
  log_events long_press_events
    (set_scan_found false
       (set_scan_counter Default_Scan_Count (set_restore_found true u))).
Proof.
  intros H. exec u (loop_restore LOW u); same_log; reflexivity.
Qed.

Lemma loop_restore_counter (pinc : Z) (r : level) (u : state) :
  restore_counter (loop pinc r u) = restore_counter (loop_restore r u).
Proof.
  exec u (loop pinc r u); reflexivity.
Qed.

(** The iterations made with RESTORE low on the PINC readings [qs]. *)
Definition held (qs : list Z) (s : state) : state :=
  fold_left (fun st q => loop q LOW st) qs s.

(** C10. Once the RESTORE countdown has run out and the line still reads
    low, every iteration runs the long-press sequence again: the countdown
    stays where it is (it is only set back to its default by an iteration
    that reads the line high, and an iteration that reads it low leaves it
    below the default), the RESTORE section logs reset, two seconds,
    un-reset, puts the scan countdown at its default and clears the
    detection flag, whatever the scan flag is, and these are what the
    iteration ends with when no key event is pending. *)
Theorem long_press_repeats (s : state) (pinc : Z) :
  restore_counter s <= 0 ->
  let s' := loop pinc LOW s in
  restore_counter s' = restore_counter s /\
  (forall qs, restore_counter (held qs s) = restore_counter s) /\
  (forall u, restore_counter u <= 0 ->
     let u' := loop_restore LOW u in
     history u' = history u ++ long_press_events /\
     scan_counter u' = Default_Scan_Count /\ scan_found u' = false /\
     scan_active u' = scan_active u) /\
  (exists post,
     history s' =
       history (loop_scan pinc s) ++ long_press_events ++ post) /\
  (numPressed s = false ->
     scan_counter s' = Default_Scan_Count /\ scan_found s' = false) /\
  (forall q u, restore_counter (loop q HIGH u) = Default_Restore_Count) /\
  (forall q u, reachable u ->
     restore_counter (loop q LOW u) < Default_Restore_Count).
Proof.
  intros Hrc s'.
  assert (Hstep : forall q u, restore_counter u <= 0 ->
                    restore_counter (loop q LOW u) = restore_counter u).
  { intros q u Hu. rewrite loop_restore_counter, loop_restore_expired by lia.
    reflexivity. }
  split; [ apply Hstep; exact Hrc | ].
  split.
  { intros qs. unfold held. revert s Hrc s'.
    induction qs as [ | q qs IH ]; intros s Hrc; cbn; [ reflexivity | ].
    rewrite IH by (rewrite Hstep; lia). apply Hstep. exact Hrc. }
  split.
  { intros u Hu u'. subst u'. rewrite loop_restore_expired by exact Hu.
    unfold history. destruct u. cbn. split; [ history_eq | auto ]. }
  split.
  { subst s'. unfold history.
    exec s (loop pinc LOW s); eexists; same_log; history_eq. }
  split.
  { intros Hn. subst s'.
    exec s (loop pinc LOW s); split; reflexivity. }
  split.
  { intros q u. rewrite loop_restore_counter. reflexivity. }
  intros q u Hu.
  destruct (reachable_invariant u Hu)
    as [_ _ _ _ _ _ _ _ _ Hr _ _ _].
  rewrite loop_restore_counter. clear Hu.
  unfold Default_Restore_Count in *.
  exec u (loop_restore LOW u); rewrite ?int16_small by lia; lia.
Qed.

(** At power-on the countdown is zero: holding RESTORE from the first
    iteration on resets the machine on every iteration. *)
Lemma long_press_repeats_witness :
  let s := setup (power_on (fun _ => 255)) in
  restore_counter (loop 31 LOW s) = 0 /\
  restore_counter (held [31; 31; 31] s) = 0.
Proof.
  intros s.
  assert (H0 : restore_counter s = 0) by (vm_compute; reflexivity).
  assert (Hle : restore_counter s <= 0) by (rewrite H0; lia).
  destruct (long_press_repeats s 31 Hle) as (H1 & H2 & _).
  split; [ rewrite H1; exact H0 | rewrite H2; exact H0 ].
Defined.

(** ** Direction of the two reset lines *)

(** The host-reset line is asserted when C64RES is high (the NPN stage
    inverts it, Note 1 of the sketch); the EXROM reset line is asserted
    when it is low. *)
Definition host_reset_asserted (tr : list event) : Prop :=
  pin_level tr C64RES = HIGH.
Definition exrom_reset_asserted (tr : list event) : Prop :=
  pin_level tr EXROMRES = LOW.

(** Each line an output exactly while asserted. *)
Definition output_while_asserted (tr : list event) : Prop :=
  (pin_dir tr C64RES = OUTPUT <-> host_reset_asserted tr) /\
  (pin_dir tr EXROMRES = OUTPUT <-> exrom_reset_asserted tr).

(** What the sketch does: C64RES is an input while asserted and an output
    while released; EXROMRES is an output while asserted and an input
    while released. *)
Definition reset_line_directions (tr : list event) : Prop :=
  (pin_dir tr C64RES = INPUT <-> host_reset_asserted tr) /\
  (pin_dir tr C64RES = OUTPUT <-> ~ host_reset_asserted tr) /\
  (pin_dir tr EXROMRES = OUTPUT <-> exrom_reset_asserted tr) /\
  (pin_dir tr EXROMRES = INPUT <-> ~ exrom_reset_asserted tr).

(** [P] holds of the log at every [delay] of the calls [evs] made after
    the log [tr], and when they are done. *)
Fixpoint at_waits (P : list event -> Prop) (tr evs : list event) : Prop :=
  match evs with
  | [] => P tr
  | Delay d :: evs' => P tr /\ at_waits P (Delay d :: tr) evs'
  | e :: evs' => at_waits P (e :: tr) evs'
  end.

Lemma at_waits_split (P : list event -> Prop) (evs : list event) :
  forall tr, at_waits P tr evs ->
  (forall pre d post, evs = pre ++ Delay d :: post -> P (rev pre ++ tr)) /\
  P (rev evs ++ tr).
Proof.
  induction evs as [ | e evs IH ]; intros tr H.
  - split; [ | exact H ].
    intros pre d post E. destruct pre; discriminate.
  - assert (Hrest : at_waits P (e :: tr) evs)
      by (destruct e; cbn in H; tauto).
    destruct (IH _ Hrest) as (IH1 & IH2).
    split.
    + intros pre d post E. destruct pre as [ | e' pre ].
      * cbn in E. injection E as -> _. cbn in H. cbn. tauto.
      * cbn in E. injection E as <- E.
        cbn [rev]. rewrite <- app_assoc. cbn [app].
        apply (IH1 pre d post E).
    + cbn [rev]. rewrite <- app_assoc. exact IH2.
Qed.

Ltac pins :=
  unfold reset_line_directions, output_while_asserted,
    host_reset_asserted, exrom_reset_asserted;
  cbn; repeat split; intros; try reflexivity; try discriminate;
  try congruence.

Lemma switch_waits (tr : list event) (a m : Z) :
  at_waits reset_line_directions tr (kernal_switch_events a) /\
  at_waits reset_line_directions tr (video_switch_events m).
Proof.
  unfold kernal_switch_events, video_switch_events, video_events,
    address_events, reset_events, unreset_events.
  split; [ | destruct (m =? 0) ]; cbn [app at_waits]; pins.
Qed.

Lemma trace_rearmed (b : bool) (c : Z) (evs : list event) (s : state) :
  trace (set_scan_found b (set_scan_counter c (log_events evs s))) =
  rev evs ++ trace s.
Proof. reflexivity. Qed.

(** C7 as amended. In every run of the reset sequence ([SwitchKernal] or
    [SwitchVideo]), at each of its delays and when it returns, EXROMRES is
    an output exactly while it is asserted and an input while released,
    and C64RES is the other way round: an input exactly while asserted and
    an output while released. *)
Theorem reset_lines_direction (s : state) :
  history (SwitchKernal s) =
    history s ++ kernal_switch_events (kernal_addr s) /\
  history (SwitchVideo s) =
    history s ++ video_switch_events (np_mode s) /\
  (forall pre d post,
     kernal_switch_events (kernal_addr s) = pre ++ Delay d :: post ->
     reset_line_directions (rev pre ++ trace s)) /\
  (forall pre d post,
     video_switch_events (np_mode s) = pre ++ Delay d :: post ->
     reset_line_directions (rev pre ++ trace s)) /\
  reset_line_directions (trace (SwitchKernal s)) /\
  reset_line_directions (trace (SwitchVideo s)).
Proof.
  destruct (switch_waits (trace s) (kernal_addr s) (np_mode s)) as (Hk & Hv).
  apply at_waits_split in Hk. apply at_waits_split in Hv.
  destruct Hk as (Hk1 & Hk2). destruct Hv as (Hv1 & Hv2).
  rewrite SwitchKernal_eq, SwitchVideo_eq. unfold history.
  rewrite !trace_rearmed, !rev_app_distr, !rev_involutive.
  split; [ reflexivity | ].
  split; [ reflexivity | ].
  split; [ exact Hk1 | ].
  split; [ exact Hv1 | ].
  split; [ exact Hk2 | exact Hv2 ].
Qed.

(** C7 as stated fails: two seconds into a run of [SwitchKernal] the
    host-reset line is asserted and C64RES is an input. *)
Lemma reset_lines_direction_counterexample :
  let s := setup (power_on (fun _ => 255)) in
  ~ (forall pre d post,
       kernal_switch_events (kernal_addr s) = pre ++ Delay d :: post ->
       output_while_asserted (rev pre ++ trace s)).
Proof.
  intros s H.
  specialize (H (reset_events ++ address_events (kernal_addr s)) 2000
                (unreset_events ++ [Delay 2000])).
  assert (E : kernal_switch_events (kernal_addr s) =
              (reset_events ++ address_events (kernal_addr s)) ++
              Delay 2000 :: unreset_events ++ [Delay 2000])
    by (unfold kernal_switch_events; rewrite <- app_assoc; reflexivity).
  destruct (H E) as ((_ & Hc) & _).
  assert (Ha : host_reset_asserted
                 (rev (reset_events ++ address_events (kernal_addr s)) ++
                  trace s)) by (vm_compute; reflexivity).
  specialize (Hc Ha). vm_compute in Hc. discriminate Hc.
Qed.
